(** * Teacher dashboard (src/pages/teacher.py): a shallow embedding

    The page runs fetch -> DataFrame -> metrics -> filter -> table/detail ->
    CSV export.  The store query ([fetch_data]) is the input of the model:
    a list of records, each a Python dict from column name to value, kept
    here as an association list in the key order the store returns it.
    Cell values are byte strings (UTF-8 text is already its bytes). *)

From Stdlib Require Import String Ascii List ZArith QArith Bool Lia.
From Stdlib Require Import Numbers.DecimalString.
Import ListNotations.
Open Scope string_scope.
#[local] Set Warnings "-abstract-large-number".

(** ** Records and the DataFrame built from them *)

Definition record := list (string * string).

(** [row[k]]: the value stored under key [k].  In a run the model covers
    every record carries every column ([uniform_records] below); the empty
    string returned for an absent key is not reached there. *)
Definition get (r : record) (k : string) : string :=
  match find (fun p => String.eqb (fst p) k) r with
  | Some (_, v) => v
  | None => ""
  end.

(** [pd.DataFrame(raw_data)]: the columns are the keys of the records, in
    order of first appearance. *)
Definition add_keys (cols ks : list string) : list string :=
  fold_left (fun acc k => if existsb (String.eqb k) acc then acc else (acc ++ [k])%list) ks cols.

Definition columns_of (raw : list record) : list string :=
  fold_left (fun acc r => add_keys acc (map fst r)) raw [].

Record frame := mkFrame { columns : list string; rows : list record }.

Definition normalize (cs : list string) (r : record) : record :=
  map (fun k => (k, get r k)) cs.

Definition from_records (raw : list record) : frame :=
  let cs := columns_of raw in mkFrame cs (map (normalize cs) raw).

(** [df[k] = f(df[k])] on an existing column. *)
Definition set_col (k : string) (f : string -> string) (df : frame) : frame :=
  mkFrame (columns df)
    (map (map (fun p => if String.eqb (fst p) k then (fst p, f (snd p)) else p)) (rows df)).

(** [pd.to_datetime(ts).dt.strftime('%Y-%m-%d %H:%M')] on the UTC
    timestamps with a time part the store returns
    ("2024-05-01T09:30:15.123456+00:00"): the date, a space, then hours
    and minutes.  [run_page] below admits only such timestamps
    ([iso_utc]). *)
Definition fmt_created_at (ts : string) : string :=
  substring 0 10 ts ++ " " ++ substring 11 5 ts.

(** Lines 44-47. *)
Definition preprocess (raw : list record) : frame :=
  set_col "created_at" fmt_created_at (from_records raw).

(** ** Summary metrics (lines 50-60) *)

(** [Series.unique()]: distinct values in order of first appearance. *)
Fixpoint unique_from (seen : list string) (l : list string) : list string :=
  match l with
  | [] => []
  | x :: l' =>
      if existsb (String.eqb x) seen then unique_from seen l'
      else x :: unique_from (x :: seen) l'
  end.

Definition unique (l : list string) : list string := unique_from [] l.

(** [str.startswith("O:")] summed over the column. *)
Definition count_correct (df : frame) : nat :=
  length (filter (fun r => String.prefix "O:" (get r "feedback_1")) (rows df)).

(** Decimal rendering of an integer. *)
Definition Z_to_string (z : Z) : string := NilEmpty.string_of_int (Z.to_int z).

(** [f"{x:.1f}"] for a non-negative double, given by its exact rational
    value [x]: Python prints the decimal with one digit nearest to the
    exact binary value, ties to even; so [10 x] is rounded to the nearest
    integer, ties to even, and printed with one decimal. *)
Definition fmt1 (x : Q) : string :=
  let n := (Qnum x * 10)%Z in
  let d := Zpos (Qden x) in
  let q := (n / d)%Z in
  let r := (n mod d)%Z in
  let q' := if (2 * r <? d)%Z then q
            else if (d <? 2 * r)%Z then (q + 1)%Z
            else if Z.even q then q else (q + 1)%Z in
  Z_to_string (q' / 10) ++ "." ++ Z_to_string (q' mod 10).

Record metrics := mkMetrics {
  total_students : nat;
  total_submissions : nat;
  correct_rate : Q;
  correct_rate_text : string
}.

(** *** Binary64 arithmetic

    numpy evaluates [/] and [*] on line 55 in IEEE binary64: each result
    is the double nearest to the exact one, ties to the even significand.
    A double is kept as its exact rational value.  [f64_round a b] is the
    double nearest to [a / b] for [a >= 0] and [b > 0]: with [k] chosen so
    that [2^52 <= a 2^k / b < 2^53], the 53-bit significand is
    [a 2^k / b] rounded to an integer, ties to even, and the value is that
    integer times [2^-k].  The exponent range is not bounded here; the
    rates of the page (0, or between [1/t] and 100) are normal doubles. *)

(** [a 2^k / b] as a fraction of integers. *)
Definition scale_num (a k : Z) : Z := if (0 <=? k)%Z then (a * 2 ^ k)%Z else a.
Definition scale_den (b k : Z) : Z := if (0 <=? k)%Z then b else (b * 2 ^ (- k))%Z.

(** [a / b] lies in [(2^(la-lb-1), 2^(la-lb+1))] for the integer base-2
    logarithms [la], [lb], so [k0] puts [a 2^k0 / b] in [(2^51, 2^53)]
    and one more step gives [[2^52, 2^53)]. *)
Definition f64_exp (a b : Z) : Z :=
  let k0 := (52 - (Z.log2 a - Z.log2 b))%Z in
  if (scale_num a k0 / scale_den b k0 <? 2 ^ 52)%Z then (k0 + 1)%Z else k0.

(** [n / d] rounded to an integer, ties to even. *)
Definition round_half_even (n d : Z) : Z :=
  let q := (n / d)%Z in
  let r := (n mod d)%Z in
  if (2 * r <? d)%Z then q
  else if (d <? 2 * r)%Z then (q + 1)%Z
  else if Z.even q then q else (q + 1)%Z.

Definition f64_round (a b : Z) : Q :=
  if (a <=? 0)%Z then 0
  else
    let k := f64_exp a b in
    let m := round_half_even (scale_num a k) (scale_den b k) in
    if (0 <=? k)%Z then Qmake m (Z.to_pos (2 ^ k)) else inject_Z (m * 2 ^ (- k)).

(** [np.int64 / int]: both operands are converted to doubles (exactly,
    below [2^53]) and divided. *)
Definition f64_div_nat (n t : nat) : Q := f64_round (Z.of_nat n) (Z.of_nat t).

(** [x * z] for a double [x >= 0] and an integer [z >= 0]. *)
Definition f64_mul_int (x : Q) (z : Z) : Q := f64_round (Qnum x * z) (Zpos (Qden x)).

(** [(q1_correct_count / total_submissions) * 100]. *)
Definition rate (correct total : nat) : Q := f64_mul_int (f64_div_nat correct total) 100.

(** The spec's formula read over the rationals, to be compared with
    [rate]. *)
Definition spec_rate (correct total : nat) : Q :=
  (inject_Z (Z.of_nat correct) / inject_Z (Z.of_nat total)) * inject_Z 100.

Definition compute_metrics (df : frame) : metrics :=
  let total_students := length (unique (map (fun r => get r "student_id") (rows df))) in
  let total_submissions := length (rows df) in
  let correct_rate := rate (count_correct df) total_submissions in
  mkMetrics total_students total_submissions correct_rate (fmt1 correct_rate).

(** ** String predicates of Python *)

(** [needle in hay] on Python strings: literal substring containment. *)
Fixpoint py_in (needle hay : string) : bool :=
  String.prefix needle hay ||
  match hay with
  | EmptyString => false
  | String _ hay' => py_in needle hay'
  end.

(** [re.search(pat, s)], which [Series.str.contains(pat)] runs (its
    [regex=True] default), for patterns whose only metacharacters are
    ['.'] (any character but a newline) and the backslash escape of the
    next character.  The other metacharacters [^$*+?{}[]()|] are outside
    this fragment and are read literally here. *)
Inductive atom := ALit (c : ascii) | AAny.

Fixpoint re_parse (p : list ascii) : list atom :=
  match p with
  | [] => []
  | "\"%char :: c :: p' => ALit c :: re_parse p'
  | "."%char :: p' => AAny :: re_parse p'
  | c :: p' => ALit c :: re_parse p'
  end.

Fixpoint re_match_prefix (a : list atom) (s : list ascii) : bool :=
  match a, s with
  | [], _ => true
  | _ :: _, [] => false
  | ALit c :: a', d :: s' => Ascii.eqb c d && re_match_prefix a' s'
  | AAny :: a', d :: s' => negb (Ascii.eqb d "010"%char) && re_match_prefix a' s'
  end.

Fixpoint re_search_atoms (a : list atom) (s : list ascii) : bool :=
  re_match_prefix a s ||
  match s with
  | [] => false
  | _ :: s' => re_search_atoms a s'
  end.

Definition re_contains (pat s : string) : bool :=
  re_search_atoms (re_parse (list_ascii_of_string pat)) (list_ascii_of_string s).

(** ** CSV export (lines 103-107) *)

Definition comma : ascii := ","%char.
Definition quote : ascii := ascii_of_nat 34.
Definition newline : ascii := "010"%char.
Definition cr : ascii := "013"%char.

(** The csv module's QUOTE_MINIMAL rule (Python 3.11), with pandas' line
    terminator ["\n"]: a field is quoted when it holds the delimiter, the
    quote character or a character of the line terminator; quotes inside
    are doubled.  A carriage return is not in the terminator and is
    written as it is. *)
Definition needs_quote (f : list ascii) : bool :=
  existsb (fun c => Ascii.eqb c comma || Ascii.eqb c quote || Ascii.eqb c newline) f.

Fixpoint double_quotes (f : list ascii) : list ascii :=
  match f with
  | [] => []
  | c :: f' => if Ascii.eqb c quote then quote :: quote :: double_quotes f' else c :: double_quotes f'
  end.

Definition enc_field (f : string) : list ascii :=
  let l := list_ascii_of_string f in
  if needs_quote l then quote :: double_quotes l ++ [quote] else l.

Fixpoint join_fields (fs : list string) : list ascii :=
  match fs with
  | [] => []
  | [f] => enc_field f
  | f :: fs' => enc_field f ++ comma :: join_fields fs'
  end.

(** [writerow]: a row made of one empty field is written as [""] so that
    it is not read back as an empty line. *)
Definition enc_row (fs : list string) : list ascii :=
  (if list_eq_dec string_dec fs [""] then [quote; quote] else join_fields fs) ++ [newline].

(** [df.to_csv(index=False)]: the header row, then one row per record. *)
Definition to_csv (df : frame) : list ascii :=
  enc_row (columns df) ++ concat (map (fun r => enc_row (map (get r) (columns df))) (rows df)).

(** [.encode('utf-8-sig')]: the byte order mark, then the UTF-8 bytes. *)
Definition bom : list ascii := [ascii_of_nat 239; ascii_of_nat 187; ascii_of_nat 191].

Definition convert_df (df : frame) : list ascii := bom ++ to_csv df.

(** ** Reading the exported file back *)

(** [csv.reader] with the default dialect (comma, double quote, doubled
    quotes inside quoted fields) over the file opened with [newline=''], as
    the csv module documents.  Outside quotes a line feed, a carriage
    return, or a carriage return followed by a line feed ends a row; inside
    quotes they are field text.  [RStart]: at the start of a row; [FStart]:
    after a comma; [Unq]: inside an unquoted field; [Quo]: inside a quoted
    field; [QuoQ]: just after a quote inside a quoted field; [EatLF]: just
    after a carriage return that ended a row, where a line feed belongs to
    the same line end.  [acc] holds the current field reversed, [row] the
    fields read so far in the row. *)
Inductive rstate := RStart | FStart | Unq | Quo | QuoQ | EatLF.

Definition fld (acc : list ascii) : string := string_of_list_ascii (rev acc).

Fixpoint parse (st : rstate) (acc : list ascii) (row : list string) (l : list ascii)
  : list (list string) :=
  match l with
  | [] => match st with RStart | EatLF => [] | _ => [(row ++ [fld acc])%list] end
  | c :: l' =>
      match st with
      | RStart | FStart | EatLF =>
          if Ascii.eqb c quote then parse Quo acc row l'
          else if Ascii.eqb c comma then parse FStart [] (row ++ [fld acc])%list l'
          else if Ascii.eqb c newline then
            match st with
            | RStart => [] :: parse RStart [] [] l'
            | EatLF => parse RStart [] [] l'
            | _ => (row ++ [fld acc])%list :: parse RStart [] [] l'
            end
          else if Ascii.eqb c cr then
            match st with
            | FStart => (row ++ [fld acc])%list :: parse EatLF [] [] l'
            | _ => [] :: parse EatLF [] [] l'
            end
          else parse Unq (c :: acc) row l'
      | Unq =>
          if Ascii.eqb c comma then parse FStart [] (row ++ [fld acc])%list l'
          else if Ascii.eqb c newline then (row ++ [fld acc])%list :: parse RStart [] [] l'
          else if Ascii.eqb c cr then (row ++ [fld acc])%list :: parse EatLF [] [] l'
          else parse Unq (c :: acc) row l'
      | Quo =>
          if Ascii.eqb c quote then parse QuoQ acc row l'
          else parse Quo (c :: acc) row l'
      | QuoQ =>
          if Ascii.eqb c quote then parse Quo (quote :: acc) row l'
          else if Ascii.eqb c comma then parse FStart [] (row ++ [fld acc])%list l'
          else if Ascii.eqb c newline then (row ++ [fld acc])%list :: parse RStart [] [] l'
          else if Ascii.eqb c cr then (row ++ [fld acc])%list :: parse EatLF [] [] l'
          else parse Unq (c :: acc) row l'
      end
  end.

(** Decoding with 'utf-8-sig' drops a leading byte order mark. *)
Definition strip_bom (l : list ascii) : list ascii :=
  match l with
  | a :: b :: c :: l' =>
      if Ascii.eqb a (ascii_of_nat 239) && Ascii.eqb b (ascii_of_nat 187)
         && Ascii.eqb c (ascii_of_nat 191) then l' else l
  | _ => l
  end.

Definition read_csv (bytes : list ascii) : list (list string) :=
  parse RStart [] [] (strip_bom bytes).

(** A value holds a carriage return. *)
Definition has_cr (f : string) : bool :=
  existsb (fun c => Ascii.eqb c cr) (list_ascii_of_string f).

(** A value that reads back as written: the reader keeps a carriage
    return as text only inside a quoted field, so a value holding one must
    be quoted for another reason. *)
Definition csv_safe (f : string) : bool :=
  needs_quote (list_ascii_of_string f) || negb (has_cr f).

(** ** The page (lines 38-113) *)

Definition display_cols : list string :=
  ["student_id"; "created_at"; "answer_1"; "feedback_1"; "answer_2"; "feedback_2";
   "answer_3"; "feedback_3"].

(** [st.success] or [st.warning] for a feedback block. *)
Inductive style := Success | Warning.

(** Lines 93, 95, 97: [st.success(fb) if "O:" in fb else st.warning(fb)]. *)
Definition feedback_style (fb : string) : style :=
  if py_in "O:" fb then Success else Warning.

Record detail := mkDetail {
  d_student_id : string;
  d_created_at : string;
  d_answers : list string;
  d_feedback : list (style * string)
}.

(** One expander (lines 80-97). *)
Definition detail_of (r : record) : detail :=
  mkDetail (get r "student_id") (get r "created_at")
    [get r "answer_1"; get r "answer_2"; get r "answer_3"]
    (map (fun k => (feedback_style (get r k), get r k)) ["feedback_1"; "feedback_2"; "feedback_3"]).

Inductive view :=
  | Placeholder
  | Dashboard (m : metrics) (table : list (list string)) (details : list detail)
      (csv : list ascii).

Section Page.

(** The test [Series.str.contains(search_id)] applies to each id once the
    pattern has compiled; [run_page] passes the one [re_compile] gives. *)
Variable str_contains : string -> string -> bool.

(** Lines 68-70: [filtered_df = df], narrowed when [search_id] is truthy. *)
Definition filter_df (search_id : string) (df : frame) : frame :=
  if String.eqb search_id "" then df
  else mkFrame (columns df)
         (filter (fun r => str_contains search_id (get r "student_id")) (rows df)).

(** The page the script draws on the fetched records and the search box
    when no step raises; [run_page] below adds the exceptions. *)
Definition render (raw_data : list record) (search_id : string) : view :=
  match raw_data with
  | [] => Placeholder
  | _ :: _ =>
      let df := preprocess raw_data in
      let m := compute_metrics df in
      let filtered_df := filter_df search_id df in
      let table := map (fun r => map (get r) display_cols) (rows filtered_df) in
      let details := map detail_of (rows filtered_df) in
      Dashboard m table details (convert_df df)
  end.

End Page.

(** The removal relation: [Sublist l1 l2] when [l1] is [l2] with some
    elements dropped and the others kept in order. *)
Inductive Sublist {A : Type} : list A -> list A -> Prop :=
  | sl_nil : Sublist [] []
  | sl_keep x l1 l2 : Sublist l1 l2 -> Sublist (x :: l1) (x :: l2)
  | sl_drop x l1 l2 : Sublist l1 l2 -> Sublist l1 (x :: l2).

(** The parts of a view. *)
Definition view_metrics (v : view) : option metrics :=
  match v with Placeholder => None | Dashboard m _ _ _ => Some m end.

Definition view_export (v : view) : option (list ascii) :=
  match v with Placeholder => None | Dashboard _ _ _ csv => Some csv end.

Definition view_table (v : view) : list (list string) :=
  match v with Placeholder => [] | Dashboard _ t _ _ => t end.

Definition view_details (v : view) : list detail :=
  match v with Placeholder => [] | Dashboard _ _ d _ => d end.

(** The two records of the spec's scenario, with the [created_at] column
    the script reformats. *)
Definition scenario_records : list record :=
  [[("student_id", "101"); ("created_at", "2024-05-01T09:31:00+00:00");
    ("feedback_1", "O: correct")];
   [("student_id", "102"); ("created_at", "2024-05-01T09:30:00+00:00");
    ("feedback_1", "X: wrong")]].

(** A record whose first feedback mentions "O:" after another verdict. *)
Definition mixed_feedback_record : record :=
  [("student_id", "103"); ("created_at", "2024-05-01T09:30:00+00:00");
   ("answer_1", "a1"); ("feedback_1", "X: O: was expected"); ("answer_2", "a2");
   ("feedback_2", "O: good"); ("answer_3", "a3"); ("feedback_3", "X: no")].

(** A record whose columns come in the store's table order, [created_at]
    first. *)
Definition table_order_record : record :=
  [("created_at", "2024-05-01T09:30:15+00:00"); ("student_id", "101");
   ("answer_1", "a1"); ("feedback_1", "O: ok"); ("answer_2", "a2");
   ("feedback_2", "O: ok"); ("answer_3", "a3"); ("feedback_3", "X: no")].

(** ** Search patterns and regex metacharacters *)

(** The metacharacters of Python's [re] other than ['.']. *)
Definition re_specials : list ascii := list_ascii_of_string "\^$*+?{}[]()|".

(** A search string with no metacharacter at all: [re.search] reads it
    literally. *)
Definition plain_pattern (p : string) : bool :=
  forallb (fun c => negb (Ascii.eqb c "."%char || existsb (Ascii.eqb c) re_specials))
    (list_ascii_of_string p).

(** A search string whose only metacharacter is ['.']. *)
Definition dot_pattern (p : string) : bool :=
  forallb (fun c => negb (existsb (Ascii.eqb c) re_specials)) (list_ascii_of_string p).

(** ** A run of the script, with the exceptions that stop it

    [render] is the page when every step succeeds.  A run can also stop on
    an exception: pandas raises [KeyError] when a column the script reads
    is missing (lines 47, 50, 54, 75), and [str.contains] raises
    [re.error] when the search string is not a valid regular expression
    (line 70).  Inputs the model does not cover are reported as
    [Unmodelled]: records that do not all carry the same keys (pandas then
    fills NaN cells, on which lines 70 and 93-97 behave differently),
    timestamps outside the shapes below, patterns outside the regex
    fragment below. *)

Inductive py_error := ReError | KeyError (k : string).

Inductive outcome (A : Type) := Done (a : A) | Raised (e : py_error) | Unmodelled.
Arguments Done {A} a.
Arguments Raised {A} e.
Arguments Unmodelled {A}.

Definition mem (k : string) (l : list string) : bool := existsb (String.eqb k) l.

(** Every record carries every column, each key once (a dict has no
    repeated key). *)
Definition uniform_records (cols : list string) (raw : list record) : bool :=
  forallb (fun r => forallb (fun k => mem k (map fst r)) cols &&
                    Nat.eqb (length (unique (map fst r))) (length r)) raw.

(** *** Timestamps *)

Definition digit_at (l : list ascii) (i : nat) : option nat :=
  match nth_error l i with
  | Some c => let n := nat_of_ascii c in
              if ((48 <=? n) && (n <=? 57))%nat then Some (n - 48)%nat else None
  | None => None
  end.

Definition num_at (l : list ascii) (i w : nat) : option nat :=
  fold_left (fun acc j => match acc, digit_at l (i + j) with
                          | Some a, Some d => Some (10 * a + d)%nat
                          | _, _ => None
                          end) (seq 0 w) (Some 0%nat).

Definition char_at (l : list ascii) (i : nat) (c : ascii) : bool :=
  match nth_error l i with Some d => Ascii.eqb c d | None => false end.

Definition in_range (o : option nat) (lo hi : nat) : bool :=
  match o with Some n => ((lo <=? n) && (n <=? hi))%nat | None => false end.

(** The timestamps the store returns for a [timestamptz] column in UTC:
    ["YYYY-MM-DDTHH:MM:SS+00:00"], or with six fraction digits
    ["YYYY-MM-DDTHH:MM:SS.ffffff+00:00"].  Days are kept to 1-28, which
    every month has, and years to pandas' timestamp range. *)
Definition iso_utc (ts : string) : bool :=
  let l := list_ascii_of_string ts in
  let n := length l in
  let frac_ok :=
    if Nat.eqb n 25 then true
    else Nat.eqb n 32 && char_at l 19 "."%char && in_range (num_at l 20 6) 0 999999%nat in
  frac_ok && String.eqb (substring (n - 6)%nat 6 ts) "+00:00" &&
  in_range (num_at l 0 4) 1678 2261 && char_at l 4 "-"%char &&
  in_range (num_at l 5 2) 1 12 && char_at l 7 "-"%char &&
  in_range (num_at l 8 2) 1 28 && char_at l 10 "T"%char &&
  in_range (num_at l 11 2) 0 23 && char_at l 13 ":"%char &&
  in_range (num_at l 14 2) 0 59 && char_at l 16 ":"%char &&
  in_range (num_at l 17 2) 0 59.

(** The column [pd.to_datetime] parses with one inferred format, all in
    UTC; [fmt_created_at] is then its [strftime('%Y-%m-%d %H:%M')]. *)
Definition created_at_modelled (vs : list string) : bool :=
  forallb iso_utc vs &&
  match vs with
  | [] => true
  | v :: _ => forallb (fun w => Nat.eqb (String.length w) (String.length v)) vs
  end.

(** *** Regular expressions *)

Definition paren_char (c : ascii) : bool := Ascii.eqb c "("%char || Ascii.eqb c ")"%char.

(** Parentheses that pair up, read left to right from depth [d]. *)
Fixpoint parens_balanced (d : nat) (p : list ascii) : bool :=
  match p with
  | [] => Nat.eqb d 0
  | c :: p' =>
      if Ascii.eqb c "("%char then parens_balanced (S d) p'
      else if Ascii.eqb c ")"%char then
        match d with O => false | S d' => parens_balanced d' p' end
      else parens_balanced d p'
  end.

(** [re.compile(pat)], which [str.contains] runs before matching, on
    patterns made of literal characters, ['.'] and at most 50 parentheses.
    Unpaired parentheses raise [re.error] ("missing ), unterminated
    subpattern", "unbalanced parenthesis").  A group does not change
    whether a match exists, so a pattern whose parentheses pair up
    searches as the pattern without them. *)
Definition re_compile (pat : string) : outcome (string -> bool) :=
  let p := list_ascii_of_string pat in
  if negb (forallb (fun c => paren_char c || negb (existsb (Ascii.eqb c) re_specials)) p)
     || (50 <? length (filter paren_char p))%nat then Unmodelled
  else if parens_balanced 0 p then
    Done (fun s => re_search_atoms (re_parse (filter (fun c => negb (paren_char c)) p))
                     (list_ascii_of_string s))
  else Raised ReError.

(** ['.'] matches one character of the Python string, one byte of an
    ASCII id. *)
Definition ascii_only (s : string) : bool :=
  forallb (fun c => nat_of_ascii c <? 128)%nat (list_ascii_of_string s).

Definition has_dot (s : string) : bool := existsb (Ascii.eqb "."%char) (list_ascii_of_string s).

(** *** The run *)

(** The script from line 38 on, its exceptions raised in the order of
    the lines that raise them. *)
Definition run_page (raw_data : list record) (search_id : string) : outcome view :=
  match raw_data with
  | [] => Done Placeholder
  | _ :: _ =>
      let cols := columns_of raw_data in
      let shown c :=
        match find (fun k => negb (mem k cols)) display_cols with
        | Some k => Raised (KeyError k)
        | None => Done (render c raw_data search_id)
        end in
      if negb (uniform_records cols raw_data) then Unmodelled
      else if negb (mem "created_at" cols) then Raised (KeyError "created_at")
      else if negb (created_at_modelled (map (fun r => get r "created_at") raw_data))
      then Unmodelled
      else if negb (mem "student_id" cols) then Raised (KeyError "student_id")
      else if negb (mem "feedback_1" cols) then Raised (KeyError "feedback_1")
      else if String.eqb search_id "" then shown (fun _ _ => true)
      else match re_compile search_id with
           | Done m =>
               if has_dot search_id
                  && negb (forallb (fun r => ascii_only (get r "student_id")) raw_data)
               then Unmodelled
               else shown (fun _ sid => m sid)
           | Raised e => Raised e
           | Unmodelled => Unmodelled
           end
  end.

(** The bytes offered for download, if the run gets to line 108. *)
Definition run_export (o : outcome view) : option (list ascii) :=
  match o with Done v => view_export v | _ => None end.

(** A complete record with the given id and first feedback. *)
Definition graded_record (sid fb : string) : record :=
  [("student_id", sid); ("created_at", "2024-05-01T09:30:15+00:00");
   ("answer_1", "a1"); ("feedback_1", fb); ("answer_2", "a2");
   ("feedback_2", "O: ok"); ("answer_3", "a3"); ("feedback_3", "X: no")].

(** 80 submissions, 23 of them correct on the first question. *)
Definition records_23_of_80 : list record :=
  (repeat (graded_record "101" "O: ok") 23 ++ repeat (graded_record "102" "X: no") 57)%list.



(** A frame with a cell holding a comma, a carriage return, a line feed
    and a quote. *)
Definition awkward_frame : frame :=
  mkFrame ["id"; "note"]
    [[("id", "1"); ("note", "a," ++ String cr (String newline (String quote "b")))]].

(** ** Export file name (line 111) *)

(** The fields of [pd.Timestamp.now()] that the name uses. *)
Record timestamp := mkTimestamp {
  ts_year : nat; ts_month : nat; ts_day : nat; ts_hour : nat; ts_minute : nat
}.

Definition digits (n : nat) : string := NilEmpty.string_of_uint (Nat.to_uint n).

(** A strftime number field: decimal digits, zero-padded to [w]. *)
Definition zpad (w : nat) (s : string) : string :=
  String.concat "" (repeat "0" (w - String.length s)) ++ s.

(** [strftime('%Y%m%d_%H%M')]. *)
Definition strftime_stamp (t : timestamp) : string :=
  zpad 4 (digits (ts_year t)) ++ zpad 2 (digits (ts_month t)) ++ zpad 2 (digits (ts_day t))
  ++ "_" ++ zpad 2 (digits (ts_hour t)) ++ zpad 2 (digits (ts_minute t)).

(** [f"submissions_{...}.csv"]. *)
Definition export_file_name (t : timestamp) : string :=
  "submissions_" ++ strftime_stamp t ++ ".csv".

(** What the reader does after a field ended by [sep]. *)
Definition after_field (sep : ascii) (row : list string) (rest : list ascii) :=
  if Ascii.eqb sep comma then parse FStart [] row rest
  else row :: parse RStart [] [] rest.

(** ** Lemmas *)

Open Scope nat_scope.

Lemma unique_from_length : forall l seen, length (unique_from seen l) <= length l.
Proof.
  induction l as [|x l IH]; intros seen; simpl; [lia|].
  destruct (existsb (String.eqb x) seen); simpl.
  - specialize (IH seen); lia.
  - specialize (IH (x :: seen)); lia.
Qed.

Lemma filter_idem {A} (p : A -> bool) (l : list A) : filter p (filter p l) = filter p l.
Proof.
  induction l as [|x l IH]; simpl; [reflexivity|].
  destruct (p x) eqn:E; simpl; [rewrite E, IH|]; auto.
Qed.

Lemma filter_Sublist {A} (p : A -> bool) (l : list A) : Sublist (filter p l) l.
Proof.
  induction l as [|x l IH]; simpl; [constructor|].
  destruct (p x); constructor; exact IH.
Qed.

Lemma render_dashboard c raw s m t d csv :
  render c raw s = Dashboard m t d csv ->
  raw <> [] /\ m = compute_metrics (preprocess raw) /\
  t = map (fun r => map (get r) display_cols) (rows (filter_df c s (preprocess raw))) /\
  d = map detail_of (rows (filter_df c s (preprocess raw))) /\
  csv = convert_df (preprocess raw).
Proof.
  destruct raw as [|r raw]; simpl; [discriminate|].
  intros H; injection H as <- <- <- <-; repeat split; congruence.
Qed.

Lemma preprocess_length raw : length (rows (preprocess raw)) = length raw.
Proof. unfold preprocess, set_col, from_records; simpl; now rewrite !length_map. Qed.

(** ** Claims *)

(** C9: on every non-empty record set the number of distinct student ids
    shown is at most the number of submissions. *)
Theorem total_students_le_submissions c raw s m :
  view_metrics (render c raw s) = Some m -> total_students m <= total_submissions m.
Proof.
  destruct (render c raw s) as [|m' t d csv] eqn:E; simpl; [discriminate|].
  intros H; injection H as <-.
  destruct (render_dashboard _ _ _ _ _ _ _ E) as (_ & -> & _).
  unfold compute_metrics, unique; cbn [total_students total_submissions].
  eapply Nat.le_trans; [apply unique_from_length|]; rewrite length_map; lia.
Qed.

Lemma total_students_le_submissions_witness :
  view_metrics (render re_contains scenario_records "") =
    Some (mkMetrics 2 2 (rate 1 2) "50.0") /\ 2 <= 2.
Proof.
  split; [reflexivity|].
  exact (total_students_le_submissions re_contains scenario_records "" _ eq_refl).
Defined.

(** C6: an empty fetch shows the placeholder and nothing else; the
    dashboard (metrics, table, details, export) appears only for a
    non-empty fetch, and there the divisor of [correct_rate],
    [total_submissions], is the number of records and is positive. *)
Theorem empty_fetch_placeholder c raw s :
  match render c raw s with
  | Placeholder => raw = []
  | Dashboard m _ _ _ =>
      raw <> [] /\ total_submissions m = length raw /\ 0 < total_submissions m /\
      correct_rate m = rate (count_correct (preprocess raw)) (total_submissions m)
  end.
Proof.
  destruct (render c raw s) as [|m t d csv] eqn:E.
  - destruct raw; [reflexivity|discriminate].
  - destruct (render_dashboard _ _ _ _ _ _ _ E) as (Hne & -> & _).
    unfold compute_metrics; cbn [total_submissions correct_rate].
    rewrite preprocess_length; split; [exact Hne|split; [reflexivity|split; [|reflexivity]]].
    destruct raw; [congruence|simpl; lia].
Qed.

(** C7: an empty search string lets the whole snapshot through, in order;
    the table and the details then show every record of it. *)
Theorem filter_empty_search c df : filter_df c "" df = df.
Proof. reflexivity. Qed.

(** C8: filtering the filtered frame again with the same search string
    changes nothing, whatever the search string and the matching test. *)
Theorem filter_idempotent c s df : filter_df c s (filter_df c s df) = filter_df c s df.
Proof.
  unfold filter_df; destruct (String.eqb s ""); [reflexivity|].
  simpl; now rewrite filter_idem.
Qed.

(** C10: with a non-empty search string the filtered rows are the rows of
    the snapshot with the non-matching ones removed, in the same order. *)
Theorem filter_keeps_order c s df :
  s <> "" ->
  rows (filter_df c s df) = filter (fun r => c s (get r "student_id")) (rows df) /\
  Sublist (rows (filter_df c s df)) (rows df) /\
  columns (filter_df c s df) = columns df.
Proof.
  intros Hs; unfold filter_df.
  destruct (String.eqb s "") eqn:E; [apply String.eqb_eq in E; contradiction|].
  simpl; split; [reflexivity|split; [apply filter_Sublist|reflexivity]].
Qed.

Lemma filter_keeps_order_witness :
  "2" <> "" /\
  rows (filter_df re_contains "2" (preprocess scenario_records))
    = filter (fun r => re_contains "2" (get r "student_id")) (rows (preprocess scenario_records)).
Proof.
  split; [discriminate|].
  apply (filter_keeps_order re_contains "2" _); discriminate.
Defined.

(** C4 (divergence): the search string reaches [str.contains] as a
    regular expression; the search "(" raises [re.error] on line 70, the
    script stops there and no download is offered, whereas with an empty
    search the full snapshot is offered for download. *)
Theorem search_error_stops_export :
  run_page [table_order_record] "(" = Raised ReError /\
  run_export (run_page [table_order_record] "(") = None /\
  run_export (run_page [table_order_record] "") = Some (convert_df (preprocess [table_order_record])).
Proof. split; [|split]; vm_compute; reflexivity. Qed.

(** ** The DataFrame keeps every value the metrics read *)

Lemma add_keys_keeps (cols ks : list string) (k : string) :
  In k cols \/ In k ks -> In k (add_keys cols ks).
Proof.
  revert cols; induction ks as [|k' ks IH]; intros cols H; simpl in *.
  - destruct H as [H|[]]; exact H.
  - apply IH.
    destruct (existsb (String.eqb k') cols) eqn:E.
    + destruct H as [H|[<-|H]]; auto.
      left; apply existsb_exists in E as (x & Hx & Ex).
      apply String.eqb_eq in Ex; subst; exact Hx.
    + destruct H as [H|[<-|H]]; auto; left; apply in_or_app; simpl; auto.
Qed.

Lemma columns_of_keys_aux (raw : list record) (acc : list string) (r : record) (k : string) :
  (In k acc \/ (In r raw /\ In k (map fst r))) ->
  In k (fold_left (fun acc r => add_keys acc (map fst r)) raw acc).
Proof.
  revert acc; induction raw as [|r' raw IH]; intros acc H; simpl in *.
  - destruct H as [H|[[] _]]; exact H.
  - apply IH; destruct H as [H|[[<-|H] Hk]].
    + left; apply add_keys_keeps; auto.
    + left; apply add_keys_keeps; auto.
    + right; auto.
Qed.

Lemma columns_of_keys (raw : list record) (r : record) (k : string) : In r raw -> In k (map fst r) -> In k (columns_of raw).
Proof. intros; apply (columns_of_keys_aux raw [] r k); auto. Qed.

Lemma get_absent (r : record) (k : string) : ~ In k (map fst r) -> get r k = "".
Proof.
  unfold get; induction r as [|[k' v] r IH]; simpl; intros H; [reflexivity|].
  destruct (String.eqb k' k) eqn:E.
  - apply String.eqb_eq in E; subst; exfalso; auto.
  - apply IH; auto.
Qed.

Lemma get_normalize (cs : list string) (r : record) (k : string) :
  (forall k', In k' (map fst r) -> In k' cs) -> get (normalize cs r) k = get r k.
Proof.
  intros Hcs.
  assert (G : get (normalize cs r) k = if existsb (String.eqb k) cs then get r k else "").
  { clear Hcs; unfold normalize; induction cs as [|k' cs IH]; simpl; [reflexivity|].
    unfold get at 1; simpl.
    destruct (String.eqb k' k) eqn:E.
    - apply String.eqb_eq in E; subst; rewrite String.eqb_refl; reflexivity.
    - rewrite String.eqb_sym, E; simpl; exact IH. }
  rewrite G; destruct (existsb (String.eqb k) cs) eqn:E; [reflexivity|].
  symmetry; apply get_absent; intros Hk.
  assert (In k cs) as Hin by auto.
  assert (existsb (String.eqb k) cs = true) as T.
  { apply existsb_exists; exists k; split; [exact Hin|apply String.eqb_refl]. }
  congruence.
Qed.

Lemma get_set_row (key : string) (f : string -> string) (r : record) (k : string) :
  k <> key ->
  get (map (fun p => if String.eqb (fst p) key then (fst p, f (snd p)) else p) r) k = get r k.
Proof.
  intros Hk; unfold get; induction r as [|[k' v] r IH]; simpl; [reflexivity|].
  destruct (String.eqb k' key) eqn:E1; simpl.
  - apply String.eqb_eq in E1; subst.
    destruct (String.eqb key k) eqn:E2; [apply String.eqb_eq in E2; congruence|exact IH].
  - destruct (String.eqb k' k); [reflexivity|exact IH].
Qed.

(** Reading any column but [created_at] from the preprocessed frame gives
    the value of the fetched record. *)
Lemma preprocess_get (raw : list record) (k : string) :
  k <> "created_at" ->
  map (fun r => get r k) (rows (preprocess raw)) = map (fun r => get r k) raw.
Proof.
  intros Hk; unfold preprocess, set_col, from_records; simpl.
  rewrite !map_map; apply map_ext_in; intros r Hr.
  rewrite get_set_row by exact Hk.
  apply get_normalize; intros k' Hk'; eapply columns_of_keys; eauto.
Qed.

Lemma length_filter_map {A B} (p : B -> bool) (g : A -> B) l :
  length (filter p (map g l)) = length (filter (fun x => p (g x)) l).
Proof.
  induction l as [|x l IH]; simpl; [reflexivity|].
  destruct (p (g x)); simpl; auto.
Qed.

Lemma count_correct_preprocess raw :
  count_correct (preprocess raw) =
  length (filter (fun r => String.prefix "O:" (get r "feedback_1")) raw).
Proof.
  unfold count_correct.
  rewrite <- (length_filter_map (String.prefix "O:") (fun r => get r "feedback_1") (rows (preprocess raw))).
  rewrite preprocess_get by discriminate.
  apply length_filter_map.
Qed.

(** C1 (as the code does it): on a non-empty fetch the metrics shown on
    lines 58-60 are the number of distinct student ids, the number of
    records, and the rate [rate n t] computed in binary64 (the quotient
    [n / t] rounded to a double, then its product with 100 rounded to a
    double) for the [n] records whose [feedback_1] starts with "O:", printed
    with one decimal.  The spec's two-record scenario gives 2, 2 and "50.0";
    23 correct of 80 prints "28.7". *)
Theorem correct_rate_formula c raw s :
  view_metrics (render c raw s) =
  match raw with
  | [] => None
  | _ :: _ =>
      let n := length (filter (fun r => String.prefix "O:" (get r "feedback_1")) raw) in
      let t := length raw in
      Some (mkMetrics (length (unique (map (fun r => get r "student_id") raw))) t
              (rate n t) (fmt1 (rate n t)))
  end /\
  view_metrics (render c scenario_records s) = Some (mkMetrics 2 2 (rate 1 2) "50.0") /\
  Qeq (rate 1 2) 50 /\ fmt1 (rate 23 80) = "28.7".
Proof.
  split; [|split; [reflexivity|split; vm_compute; reflexivity]].
  destruct raw as [|r0 raw0] eqn:Er; [reflexivity|].
  rewrite <- Er; cbv zeta.
  replace (view_metrics (render c raw s)) with (Some (compute_metrics (preprocess raw)))
    by (subst raw; reflexivity).
  unfold compute_metrics; cbv zeta.
  rewrite count_correct_preprocess, preprocess_length, preprocess_get by discriminate.
  reflexivity.
Qed.

(** C1 (as stated, refuted): the spec's formula over the rationals and the
    page differ on 23 correct submissions out of 80: 23/80 * 100 = 28.75
    prints as "28.8", but the double nearest to 23/80, times 100, is
    28.749999999999996 and the page prints "28.7". *)
Lemma correct_rate_not_exact :
  length (filter (fun r => String.prefix "O:" (get r "feedback_1")) records_23_of_80) = 23 /\
  length records_23_of_80 = 80 /\
  option_map correct_rate_text
    (match run_page records_23_of_80 "" with Done v => view_metrics v | _ => None end) =
    Some "28.7" /\
  fmt1 (spec_rate 23 80) = "28.8".
Proof. repeat split; vm_compute; reflexivity. Qed.

(** C2 (divergence): the styling test is "O:" anywhere in the feedback,
    not at its start: a feedback that begins with "X:" but mentions "O:"
    later is styled as a success. *)
Theorem feedback_style_anywhere c :
  map d_feedback (view_details (render c [mixed_feedback_record] "")) =
    [[(Success, "X: O: was expected"); (Success, "O: good"); (Warning, "X: no")]] /\
  String.prefix "O:" "X: O: was expected" = false.
Proof.
  split; reflexivity.
Qed.

(** C3 (divergence): [str.contains] reads the search string as a regular
    expression; the search "." keeps the id "101", which does not contain
    the character '.'. *)
Theorem search_is_regex :
  view_table (render re_contains [table_order_record] ".") =
    [["101"; "2024-05-01 09:30"; "a1"; "O: ok"; "a2"; "O: ok"; "a3"; "X: no"]] /\
  py_in "." "101" = false.
Proof. split; reflexivity. Qed.

(** ** Reading back what [to_csv] writes *)

Lemma unq_run l acc row rest :
  needs_quote l = false -> existsb (fun c => Ascii.eqb c cr) l = false ->
  parse Unq acc row (l ++ rest) = parse Unq (rev l ++ acc) row rest.
Proof.
  revert acc; induction l as [|c l IH]; intros acc H Hr; [reflexivity|].
  unfold needs_quote in H; simpl in H, Hr.
  apply orb_false_elim in H as [H1 H2].
  apply orb_false_elim in Hr as [Hcr Hr].
  apply orb_false_elim in H1 as [H1 Hnl].
  apply orb_false_elim in H1 as [Hc Hq].
  simpl; rewrite Hc, Hnl, Hcr, IH by assumption.
  rewrite <- app_assoc; reflexivity.
Qed.

Lemma quo_run l acc row rest :
  parse Quo acc row (double_quotes l ++ rest) = parse Quo (rev l ++ acc) row rest.
Proof.
  revert acc; induction l as [|c l IH]; intros acc; [reflexivity|].
  simpl; destruct (Ascii.eqb c quote) eqn:E.
  - apply Ascii.eqb_eq in E; subst; simpl.
    rewrite IH, <- app_assoc; reflexivity.
  - simpl; rewrite E, IH, <- app_assoc; reflexivity.
Qed.

Lemma fld_rev l : fld (rev l) = string_of_list_ascii l.
Proof. unfold fld; now rewrite rev_involutive. Qed.

(** An unquoted safe value holds none of the four characters the reader
    acts on. *)
Lemma safe_unquoted f c l :
  csv_safe f = true -> needs_quote (list_ascii_of_string f) = false ->
  list_ascii_of_string f = c :: l ->
  Ascii.eqb c quote = false /\ Ascii.eqb c comma = false /\ Ascii.eqb c newline = false /\
  Ascii.eqb c cr = false /\ needs_quote l = false /\
  existsb (fun c => Ascii.eqb c cr) l = false.
Proof.
  unfold csv_safe, has_cr; intros S Q L; rewrite Q in S; simpl in S.
  rewrite L in Q, S; apply negb_true_iff in S.
  unfold needs_quote in Q; simpl in Q, S.
  apply orb_false_elim in Q as [Q1 Q2].
  apply orb_false_elim in S as [Hcr S2].
  apply orb_false_elim in Q1 as [Q1 Hnl].
  apply orb_false_elim in Q1 as [Hc Hq].
  repeat split; assumption.
Qed.

Lemma field_run f sep row rest :
  csv_safe f = true -> sep = comma \/ sep = newline ->
  parse FStart [] row (enc_field f ++ sep :: rest) = after_field sep (row ++ [f])%list rest.
Proof.
  intros Hf Hsep; unfold enc_field, after_field.
  destruct (needs_quote (list_ascii_of_string f)) eqn:Q.
  - simpl; rewrite <- app_assoc, quo_run; simpl.
    rewrite app_nil_r, fld_rev, string_of_list_ascii_of_string.
    destruct Hsep as [->| ->]; reflexivity.
  - destruct (list_ascii_of_string f) as [|c l] eqn:L.
    + assert (f = "") as ->.
      { rewrite <- (string_of_list_ascii_of_string f), L; reflexivity. }
      destruct Hsep as [->| ->]; reflexivity.
    + destruct (safe_unquoted f c l Hf ltac:(rewrite L; exact Q) L) as (Hq & Hc & Hnl & Hcr & Q2 & R2).
      simpl; rewrite Hq, Hc, Hnl, Hcr, unq_run by assumption.
      assert (FL : fld (rev l ++ [c]) = f).
      { rewrite <- (string_of_list_ascii_of_string f), L.
        unfold fld; rewrite rev_app_distr, rev_involutive; reflexivity. }
      destruct Hsep as [->| ->]; simpl; rewrite FL; reflexivity.
Qed.

Lemma fields_run fs row rest :
  fs <> [] -> Forall (fun f => csv_safe f = true) fs ->
  parse FStart [] row (join_fields fs ++ newline :: rest) = (row ++ fs)%list :: parse RStart [] [] rest.
Proof.
  revert row; induction fs as [|f fs IH]; intros row H Hs; [congruence|].
  inversion Hs as [|? ? Hf Hfs]; subst.
  destruct fs as [|f' fs'].
  - simpl join_fields; rewrite field_run by (assumption || (right; reflexivity)); reflexivity.
  - change (join_fields (f :: f' :: fs')) with (enc_field f ++ comma :: join_fields (f' :: fs'))%list.
    rewrite <- app_assoc, <- app_comm_cons, field_run by (assumption || (left; reflexivity)).
    unfold after_field; simpl Ascii.eqb; cbv iota.
    rewrite IH by (discriminate || assumption); rewrite <- app_assoc; reflexivity.
Qed.

Lemma start_row_plain c l :
  Ascii.eqb c newline = false -> Ascii.eqb c cr = false ->
  parse RStart [] [] (c :: l) = parse FStart [] [] (c :: l).
Proof.
  intros H Hr; simpl; rewrite H, Hr.
  destruct (Ascii.eqb c quote); [reflexivity|].
  destruct (Ascii.eqb c comma); reflexivity.
Qed.

Lemma enc_field_head f :
  csv_safe f = true ->
  enc_field f = [] \/
  exists c l, enc_field f = c :: l /\ Ascii.eqb c newline = false /\ Ascii.eqb c cr = false.
Proof.
  intros Hf; unfold enc_field.
  destruct (needs_quote (list_ascii_of_string f)) eqn:Q; [right; eexists _, _; split; [|split]; reflexivity|].
  destruct (list_ascii_of_string f) as [|c l] eqn:L; [left; reflexivity|right].
  destruct (safe_unquoted f c l Hf ltac:(rewrite L; exact Q) L) as (_ & _ & Hnl & Hcr & _).
  exists c, l; split; [reflexivity|split; assumption].
Qed.

Lemma enc_field_nil f : enc_field f = [] -> f = "".
Proof.
  unfold enc_field; destruct (needs_quote (list_ascii_of_string f)); [discriminate|].
  intros L; rewrite <- (string_of_list_ascii_of_string f), L; reflexivity.
Qed.

Lemma join_fields_head fs rest :
  fs <> [] -> fs <> [""] -> Forall (fun f => csv_safe f = true) fs ->
  exists c l, (join_fields fs ++ newline :: rest)%list = c :: l /\
              Ascii.eqb c newline = false /\ Ascii.eqb c cr = false.
Proof.
  intros H1 H2 Hs; destruct fs as [|f fs]; [congruence|].
  inversion Hs as [|? ? Hf _]; subst.
  assert (J : exists t, join_fields (f :: fs) = (enc_field f ++ t)%list /\
                        (fs = [] \/ exists t', t = comma :: t')).
  { destruct fs as [|f' fs]; [exists []; rewrite app_nil_r; auto|].
    eexists; split; [reflexivity|right; eexists; reflexivity]. }
  destruct J as (t & -> & Ht).
  destruct (enc_field_head f Hf) as [E|(c & l & E & Hc & Hr)].
  - apply enc_field_nil in E as Ef; subst f; rewrite E; simpl.
    destruct Ht as [->|(t' & ->)]; [congruence|].
    exists comma; eexists; split; [reflexivity|split; reflexivity].
  - rewrite E; exists c; eexists; split; [reflexivity|split; assumption].
Qed.

Lemma enc_row_run fs rest :
  Forall (fun f => csv_safe f = true) fs ->
  parse RStart [] [] (enc_row fs ++ rest) = fs :: parse RStart [] [] rest.
Proof.
  intros Hs; unfold enc_row.
  destruct (list_eq_dec string_dec fs [""]) as [->|Hne]; [reflexivity|].
  destruct fs as [|f fs]; [reflexivity|].
  rewrite <- app_assoc; simpl app at 2.
  destruct (join_fields_head (f :: fs) rest) as (c & l & E & Hc & Hr);
    [discriminate|exact Hne|exact Hs|].
  rewrite E, start_row_plain by assumption; rewrite <- E.
  apply fields_run; [discriminate|exact Hs].
Qed.

Lemma read_rows_run (rs : list (list string)) :
  Forall (Forall (fun f => csv_safe f = true)) rs ->
  parse RStart [] [] (concat (map enc_row rs)) = rs.
Proof.
  induction rs as [|fs rs IH]; intros Hs; [reflexivity|].
  inversion Hs; subst.
  simpl; rewrite enc_row_run, IH by assumption; reflexivity.
Qed.

















(** ** Further properties of the page *)

Lemma rhe_bounds n d B :
  (0 < d)%Z -> (0 <= n)%Z -> (n <= B * d)%Z -> (0 <= round_half_even n d <= B)%Z.
Proof.
  intros Hd Hn HB; unfold round_half_even; cbv zeta.
  pose proof (Z.div_mod n d ltac:(lia)) as E.
  pose proof (Z.mod_pos_bound n d Hd) as R.
  assert (Q0 : (0 <= n / d)%Z) by (apply Z.div_pos; lia).
  assert (QB : (n / d <= B)%Z) by (apply Z.div_le_upper_bound; lia).
  destruct (2 * (n mod d) <? d)%Z eqn:L1; [lia|apply Z.ltb_ge in L1].
  assert (QB' : (n / d < B)%Z) by nia.
  destruct (d <? 2 * (n mod d))%Z; [lia|].
  destruct (Z.even (n / d)); lia.
Qed.

Lemma f64_exp_lower a b : (52 - (Z.log2 a - Z.log2 b) <= f64_exp a b)%Z.
Proof. unfold f64_exp; cbv zeta; destruct (_ <? _)%Z; lia. Qed.

(** Rounding [a / b <= C] to a double stays within [[0, C]] when [C] is a
    small integer. *)
Lemma f64_round_bounds a b C :
  (0 < b)%Z -> (0 <= C)%Z -> (Z.log2 C <= 50)%Z -> (a <= C * b)%Z ->
  (0 <= f64_round a b /\ f64_round a b <= inject_Z C)%Q.
Proof.
  intros Hb HC HlC Hab; unfold f64_round.
  destruct (a <=? 0)%Z eqn:Ha.
  - split; [apply Qle_refl|unfold Qle; simpl; lia].
  - apply Z.leb_gt in Ha; cbv zeta.
    assert (Hk : (0 <= f64_exp a b)%Z).
    { pose proof (f64_exp_lower a b).
      assert (Z.log2 a <= Z.log2 (C * b))%Z by (apply Z.log2_le_mono; exact Hab).
      assert (Z.log2 (C * b) <= Z.log2 C + Z.log2 b + 1)%Z by (apply Z.log2_mul_above; lia).
      lia. }
    set (k := f64_exp a b) in *.
    replace (0 <=? k)%Z with true by (symmetry; apply Z.leb_le; exact Hk).
    unfold scale_num, scale_den; replace (0 <=? k)%Z with true by (symmetry; apply Z.leb_le; exact Hk).
    assert (P : (0 < 2 ^ k)%Z) by (apply Z.pow_pos_nonneg; lia).
    destruct (rhe_bounds (a * 2 ^ k) b (C * 2 ^ k)) as [M0 M1]; [lia|nia|nia|].
    unfold Qle; simpl; rewrite Z2Pos.id by exact P; split; lia.
Qed.

Lemma rate_bounds n t : n <= t -> 0 < t -> (0 <= rate n t /\ rate n t <= 100)%Q.
Proof.
  intros Hn Ht; unfold rate, f64_mul_int, f64_div_nat.
  assert (B : (0 <= f64_round (Z.of_nat n) (Z.of_nat t) /\
               f64_round (Z.of_nat n) (Z.of_nat t) <= inject_Z 1)%Q).
  { apply f64_round_bounds; [lia|lia|simpl; lia|lia]. }
  destruct B as [X0 X1].
  set (x := f64_round (Z.of_nat n) (Z.of_nat t)) in *.
  unfold Qle in X0, X1; cbn [Qnum Qden inject_Z] in X0, X1.
  apply f64_round_bounds; [lia|lia|simpl; lia|lia].
Qed.

Lemma view_metrics_some c raw s m :
  view_metrics (render c raw s) = Some m ->
  raw <> [] /\ m = compute_metrics (preprocess raw).
Proof. destruct raw; simpl; [discriminate|]; intros H; injection H as <-; split; congruence. Qed.

(** The correctness percentage shown lies between 0 and 100. *)
Theorem correct_rate_bounds c raw s m :
  view_metrics (render c raw s) = Some m ->
  (0 <= correct_rate m /\ correct_rate m <= 100)%Q.
Proof.
  intros H; apply view_metrics_some in H as (Hne & ->).
  apply rate_bounds.
  - unfold count_correct; apply filter_length_le.
  - rewrite preprocess_length; destruct raw; [congruence|simpl; lia].
Qed.

Lemma correct_rate_bounds_witness :
  view_metrics (render re_contains scenario_records "") = Some (mkMetrics 2 2 (rate 1 2) "50.0") /\
  (0 <= rate 1 2 /\ rate 1 2 <= 100)%Q.
Proof.
  split; [reflexivity|].
  exact (correct_rate_bounds re_contains scenario_records "" _ eq_refl).
Defined.

Lemma fmt1_exact (x : Q) (k : Z) :
  (Qnum x * 10 = k * Zpos (Qden x))%Z ->
  fmt1 x = Z_to_string (k / 10) ++ "." ++ Z_to_string (k mod 10).
Proof.
  intros H; unfold fmt1; cbv zeta.
  rewrite H, Z.div_mul, Z.mod_mul by lia; simpl; reflexivity.
Qed.

Lemma count_correct_none raw :
  (forall r, In r raw -> String.prefix "O:" (get r "feedback_1") = false) ->
  count_correct (preprocess raw) = 0.
Proof.
  intros H; rewrite count_correct_preprocess.
  induction raw as [|r raw IH]; simpl; [reflexivity|].
  rewrite H by (left; reflexivity); apply IH; intros; apply H; right; auto.
Qed.

Lemma count_correct_all raw :
  (forall r, In r raw -> String.prefix "O:" (get r "feedback_1") = true) ->
  count_correct (preprocess raw) = length raw.
Proof.
  intros H; rewrite count_correct_preprocess.
  induction raw as [|r raw IH]; simpl; [reflexivity|].
  rewrite H by (left; reflexivity); simpl; f_equal; apply IH; intros; apply H; right; auto.
Qed.

Lemma f64_round_same a : (0 < a)%Z -> f64_round a a = Qmake (2 ^ 52) (Z.to_pos (2 ^ 52)).
Proof.
  intros Ha; unfold f64_round.
  replace (a <=? 0)%Z with false by (symmetry; apply Z.leb_gt; exact Ha).
  assert (E : f64_exp a a = 52%Z).
  { unfold f64_exp; rewrite Z.sub_diag; cbv zeta.
    change (scale_num a (52 - 0)) with (a * 2 ^ 52)%Z.
    change (scale_den a (52 - 0)) with a.
    rewrite Z.mul_comm, Z.div_mul by lia; reflexivity. }
  cbv zeta; rewrite E.
  change (scale_num a 52) with (a * 2 ^ 52)%Z; change (scale_den a 52) with a.
  unfold round_half_even; cbv zeta.
  change (0 <=? 52)%Z with true; cbv beta iota.
  rewrite (Z.mul_comm a (2 ^ 52)), Z.div_mul, Z.mod_mul by lia.
  replace (2 * 0 <? a)%Z with true by (symmetry; apply Z.ltb_lt; lia).
  reflexivity.
Qed.

(** When no first feedback starts with "O:" the rate is 0 and reads
    "0.0"; when every one does, it is 100 and reads "100.0". *)
Theorem correct_rate_extremes c raw s m :
  view_metrics (render c raw s) = Some m ->
  ((forall r, In r raw -> String.prefix "O:" (get r "feedback_1") = false) ->
     correct_rate m == 0 /\ correct_rate_text m = "0.0") /\
  ((forall r, In r raw -> String.prefix "O:" (get r "feedback_1") = true) ->
     correct_rate m == 100 /\ correct_rate_text m = "100.0").
Proof.
  intros H; apply view_metrics_some in H as (Hne & ->).
  unfold compute_metrics; cbn [correct_rate correct_rate_text].
  rewrite preprocess_length.
  destruct raw as [|r0 raw0]; [congruence|]; set (raw := r0 :: raw0).
  split; intros Hall.
  - rewrite count_correct_none by exact Hall.
    replace (rate 0 (length raw)) with (0 : Q) by reflexivity.
    split; reflexivity.
  - rewrite count_correct_all by exact Hall.
    unfold rate, f64_div_nat; rewrite f64_round_same by (simpl; lia).
    split; vm_compute; reflexivity.
Qed.

Lemma correct_rate_extremes_witness :
  view_metrics (render re_contains [table_order_record] "") =
    Some (mkMetrics 1 1 (rate 1 1) "100.0") /\
  ((forall r, In r [table_order_record] -> String.prefix "O:" (get r "feedback_1") = true) ->
     rate 1 1 == 100 /\ "100.0" = "100.0").
Proof.
  split; [reflexivity|].
  exact (proj2 (correct_rate_extremes re_contains [table_order_record] "" _ eq_refl)).
Defined.

Lemma existsb_eqb_false (x : string) (l : list string) :
  existsb (String.eqb x) l = false <-> ~ In x l.
Proof.
  split.
  - intros H Hin.
    assert (existsb (String.eqb x) l = true) by
      (apply existsb_exists; exists x; split; [exact Hin|apply String.eqb_refl]).
    congruence.
  - intros H; destruct (existsb (String.eqb x) l) eqn:E; [|reflexivity].
    apply existsb_exists in E as (y & Hy & Ey); apply String.eqb_eq in Ey; subst; contradiction.
Qed.

Lemma unique_from_full l seen :
  length (unique_from seen l) = length l -> NoDup l /\ (forall x, In x l -> ~ In x seen).
Proof.
  revert seen; induction l as [|x l IH]; intros seen H; simpl in *.
  - split; [constructor|intros _ []].
  - destruct (existsb (String.eqb x) seen) eqn:E.
    + pose proof (unique_from_length l seen); lia.
    + simpl in H; injection H as H.
      destruct (IH (x :: seen) H) as (Hnd & Hdis).
      apply existsb_eqb_false in E.
      split.
      * constructor; [intros Hx; apply (Hdis x Hx); left; reflexivity|exact Hnd].
      * intros y [<-|Hy]; [exact E|intros Hs; apply (Hdis y Hy); right; exact Hs].
Qed.

Lemma unique_from_nodup l seen :
  NoDup l -> (forall x, In x l -> ~ In x seen) -> unique_from seen l = l.
Proof.
  revert seen; induction l as [|x l IH]; intros seen Hnd Hdis; simpl; [reflexivity|].
  inversion Hnd as [|? ? Hx Hnd']; subst.
  rewrite (proj2 (existsb_eqb_false x seen)) by (apply Hdis; left; reflexivity).
  f_equal; apply IH; [exact Hnd'|].
  intros y Hy [<-|Hs]; [contradiction|apply (Hdis y); [right|]; assumption].
Qed.

(** [total_students] equals [total_submissions] exactly when no student id
    occurs twice, and it is at least 1. *)
Theorem total_students_distinct c raw s m :
  view_metrics (render c raw s) = Some m ->
  (total_students m = total_submissions m <-> NoDup (map (fun r => get r "student_id") raw)) /\
  1 <= total_students m.
Proof.
  intros H; apply view_metrics_some in H as (Hne & ->).
  unfold compute_metrics, unique; cbn [total_students total_submissions].
  rewrite <- (length_map (fun r => get r "student_id") (rows (preprocess raw))).
  rewrite preprocess_get by discriminate.
  split; [split|].
  - intros E; apply (unique_from_full _ [] E).
  - intros Hnd; rewrite unique_from_nodup; [reflexivity|exact Hnd|intros x _ []].
  - destruct raw as [|r raw']; [congruence|]; simpl; lia.
Qed.

Lemma total_students_distinct_witness :
  view_metrics (render re_contains scenario_records "") = Some (mkMetrics 2 2 (rate 1 2) "50.0") /\
  (2 = 2 <-> NoDup (map (fun r => get r "student_id") scenario_records)) /\ 1 <= 2.
Proof.
  split; [reflexivity|].
  exact (total_students_distinct re_contains scenario_records "" _ eq_refl).
Defined.





Lemma prefix_py_in p s : String.prefix p s = true -> py_in p s = true.
Proof. destruct s; simpl; intros ->; reflexivity. Qed.

(** A feedback that starts with "O:" is always shown as a success; in
    particular every record counted as correct in the rate has its first
    feedback shown as a success. *)
Theorem prefix_feedback_success r :
  String.prefix "O:" (get r "feedback_1") = true ->
  hd (Warning, "") (d_feedback (detail_of r)) = (Success, get r "feedback_1").
Proof.
  intros H; simpl; unfold feedback_style; rewrite prefix_py_in by exact H; reflexivity.
Qed.

Lemma prefix_feedback_success_witness :
  String.prefix "O:" (get table_order_record "feedback_1") = true /\
  hd (Warning, "") (d_feedback (detail_of table_order_record)) = (Success, "O: ok").
Proof.
  split; [reflexivity|].
  exact (prefix_feedback_success table_order_record eq_refl).
Defined.

Lemma re_parse_cons c l :
  c <> "\"%char -> re_parse (c :: l) = (if Ascii.eqb c "."%char then AAny else ALit c) :: re_parse l.
Proof.
  intros Hc; destruct c as [[] [] [] [] [] [] [] []]; try reflexivity; congruence.
Qed.

Lemma plain_char c :
  negb (Ascii.eqb c "."%char || existsb (Ascii.eqb c) re_specials) = true ->
  c <> "\"%char /\ Ascii.eqb c "."%char = false.
Proof.
  intros H; apply negb_true_iff, orb_false_elim in H as [H1 H2].
  split; [intros ->; discriminate|exact H1].
Qed.

Lemma dot_char c :
  negb (existsb (Ascii.eqb c) re_specials) = true -> c <> "\"%char.
Proof. intros H ->; discriminate. Qed.

Lemma re_parse_plain l :
  forallb (fun c => negb (Ascii.eqb c "."%char || existsb (Ascii.eqb c) re_specials)) l = true ->
  re_parse l = map ALit l.
Proof.
  induction l as [|c l IH]; cbn [forallb map]; intros H; [reflexivity|].
  apply andb_true_iff in H as [Hc Hl]; apply plain_char in Hc as [Hb Hd].
  rewrite re_parse_cons, Hd, IH by assumption; reflexivity.
Qed.

Lemma re_parse_dot l :
  forallb (fun c => negb (existsb (Ascii.eqb c) re_specials)) l = true ->
  re_parse l = map (fun c => if Ascii.eqb c "."%char then AAny else ALit c) l.
Proof.
  induction l as [|c l IH]; cbn [forallb map]; intros H; [reflexivity|].
  apply andb_true_iff in H as [Hc Hl]; apply dot_char in Hc.
  rewrite re_parse_cons, IH by assumption; reflexivity.
Qed.

Lemma match_lit_prefix p s :
  re_match_prefix (map ALit (list_ascii_of_string p)) (list_ascii_of_string s) = String.prefix p s.
Proof.
  revert s; induction p as [|a p IH]; intros s; [destruct s; reflexivity|].
  destruct s as [|b s]; [reflexivity|]; simpl.
  destruct (ascii_dec a b) as [<-|Hab].
  - rewrite Ascii.eqb_refl; apply IH.
  - apply Ascii.eqb_neq in Hab; rewrite Hab; reflexivity.
Qed.

Lemma search_lit p s :
  re_search_atoms (map ALit (list_ascii_of_string p)) (list_ascii_of_string s) = py_in p s.
Proof.
  induction s as [|b s IH].
  - simpl; destruct p; reflexivity.
  - change (list_ascii_of_string (String b s)) with (b :: list_ascii_of_string s).
    change (py_in p (String b s)) with (String.prefix p (String b s) || py_in p s).
    simpl re_search_atoms; rewrite <- IH.
    change (b :: list_ascii_of_string s) with (list_ascii_of_string (String b s)).
    rewrite match_lit_prefix; reflexivity.
Qed.

Lemma match_dot_prefix p s :
  String.prefix p s = true ->
  re_match_prefix (map (fun c => if Ascii.eqb c "."%char then AAny else ALit c)
                     (list_ascii_of_string p)) (list_ascii_of_string s) = true.
Proof.
  revert s; induction p as [|a p IH]; intros s H; [destruct s; reflexivity|].
  destruct s as [|b s]; [discriminate|]; simpl in H |- *.
  destruct (ascii_dec a b) as [<-|]; [|discriminate].
  destruct (Ascii.eqb a "."%char) eqn:Ea.
  - apply Ascii.eqb_eq in Ea; subst a; simpl; apply IH; exact H.
  - simpl; rewrite Ascii.eqb_refl; apply IH; exact H.
Qed.

Lemma search_dot p s :
  py_in p s = true ->
  re_search_atoms (map (fun c => if Ascii.eqb c "."%char then AAny else ALit c)
                     (list_ascii_of_string p)) (list_ascii_of_string s) = true.
Proof.
  induction s as [|b s IH]; intros H.
  - simpl in H; rewrite orb_false_r in H.
    pose proof (match_dot_prefix p "" H) as M; simpl in M |- *; rewrite M; reflexivity.
  - change (py_in p (String b s)) with (String.prefix p (String b s) || py_in p s) in H.
    change (list_ascii_of_string (String b s)) with (b :: list_ascii_of_string s).
    simpl re_search_atoms.
    apply orb_true_iff in H as [H|H].
    + change (b :: list_ascii_of_string s) with (list_ascii_of_string (String b s)).
      rewrite (match_dot_prefix p (String b s) H); reflexivity.
    + rewrite (IH H), orb_true_r; reflexivity.
Qed.

(** A search string with no regular-expression metacharacter filters
    exactly as a literal substring search would. *)
Theorem plain_search_is_literal p df :
  plain_pattern p = true -> filter_df re_contains p df = filter_df py_in p df.
Proof.
  intros H; unfold filter_df; destruct (String.eqb p ""); [reflexivity|].
  f_equal; apply filter_ext; intros r.
  unfold re_contains; rewrite re_parse_plain by exact H; apply search_lit.
Qed.

Lemma plain_search_is_literal_witness :
  plain_pattern "10" = true /\
  filter_df re_contains "10" (preprocess scenario_records) = filter_df py_in "10" (preprocess scenario_records).
Proof.
  split; [reflexivity|].
  apply (plain_search_is_literal "10" _); reflexivity.
Defined.

(** A search string whose only metacharacter is '.' never drops a record
    whose student id contains it literally. *)
Theorem dot_search_keeps_literal p df r :
  dot_pattern p = true -> In r (rows df) -> py_in p (get r "student_id") = true ->
  In r (rows (filter_df re_contains p df)).
Proof.
  intros Hp Hr Hin; unfold filter_df; destruct (String.eqb p ""); [exact Hr|].
  simpl; apply filter_In; split; [exact Hr|].
  unfold re_contains; rewrite re_parse_dot by exact Hp; apply search_dot; exact Hin.
Qed.

Lemma dot_search_keeps_literal_witness :
  In [("student_id", "1.0")] (rows (filter_df re_contains "1." (mkFrame ["student_id"] [[("student_id", "1.0")]]))).
Proof.
  apply (dot_search_keeps_literal "1." (mkFrame ["student_id"] [[("student_id", "1.0")]])
           [("student_id", "1.0")]); [reflexivity|left; reflexivity|reflexivity].
Defined.

(** Any frame written by [convert_df] reads back with [csv.reader] as its
    header and its rows, whatever commas, quotes or line feeds its cells
    hold, as long as a cell holding a carriage return is quoted for one of
    these reasons. *)
Theorem convert_df_roundtrip df :
  forallb csv_safe (columns df) = true ->
  forallb (fun r => forallb (fun k => csv_safe (get r k)) (columns df)) (rows df) = true ->
  read_csv (convert_df df) = columns df :: map (fun r => map (get r) (columns df)) (rows df).
Proof.
  intros Hc Hr; rewrite forallb_forall in Hr.
  unfold read_csv, convert_df, bom; simpl strip_bom; unfold to_csv.
  rewrite <- (map_map (fun r => map (get r) (columns df)) enc_row).
  rewrite enc_row_run, read_rows_run; [reflexivity| |].
  - apply Forall_forall; intros row Hrow; apply in_map_iff in Hrow as (r & <- & Hin).
    apply Forall_forall; intros f Hf; apply in_map_iff in Hf as (k & <- & Hk).
    specialize (Hr r Hin); rewrite forallb_forall in Hr; apply Hr, Hk.
  - apply Forall_forall; intros k Hk; rewrite forallb_forall in Hc; apply Hc, Hk.
Qed.

Lemma convert_df_roundtrip_witness :
  read_csv (convert_df awkward_frame) =
    [["id"; "note"]; ["1"; "a," ++ String cr (String newline (String quote "b"))]].
Proof. apply (convert_df_roundtrip awkward_frame); reflexivity. Defined.

Lemma zpad2_length n : n < 100 -> String.length (zpad 2 (digits n)) = 2.
Proof.
  intros H.
  assert (B : forallb (fun k => Nat.eqb (String.length (zpad 2 (digits k))) 2) (seq 0 100) = true)
    by (vm_compute; reflexivity).
  rewrite forallb_forall in B.
  apply Nat.eqb_eq, B, in_seq; lia.
Qed.

Lemma zpad4_length n : 1000 <= n < 10000 -> String.length (zpad 4 (digits n)) = 4.
Proof.
  intros H.
  assert (B : forallb (fun k => Nat.eqb (String.length (zpad 4 (digits k))) 4) (seq 1000 9000) = true)
    by (vm_compute; reflexivity).
  rewrite forallb_forall in B.
  assert (E : 1000 + 9000 = 10000) by reflexivity.
  apply Nat.eqb_eq, B, in_seq; rewrite E; lia.
Qed.

(** For every time pandas can represent (four-digit years), the download
    is named "submissions_" followed by 8 + 1 + 4 characters and ".csv":
    29 characters in all. *)
Theorem export_file_name_shape t :
  1000 <= ts_year t < 10000 -> ts_month t < 100 -> ts_day t < 100 ->
  ts_hour t < 100 -> ts_minute t < 100 ->
  String.length (export_file_name t) = 29 /\
  substring 0 12 (export_file_name t) = "submissions_" /\
  substring 20 1 (export_file_name t) = "_" /\
  substring 25 4 (export_file_name t) = ".csv".
Proof.
  intros Hy Hmo Hd Hh Hmi.
  unfold export_file_name, strftime_stamp.
  pose proof (zpad4_length _ Hy) as Ly.
  pose proof (zpad2_length _ Hmo) as Lmo.
  pose proof (zpad2_length _ Hd) as Ld.
  pose proof (zpad2_length _ Hh) as Lh.
  pose proof (zpad2_length _ Hmi) as Lmi.
  destruct (zpad 4 (digits (ts_year t))) as [|y1 [|y2 [|y3 [|y4 [|]]]]]; try discriminate.
  destruct (zpad 2 (digits (ts_month t))) as [|a1 [|a2 [|]]]; try discriminate.
  destruct (zpad 2 (digits (ts_day t))) as [|b1 [|b2 [|]]]; try discriminate.
  destruct (zpad 2 (digits (ts_hour t))) as [|c1 [|c2 [|]]]; try discriminate.
  destruct (zpad 2 (digits (ts_minute t))) as [|e1 [|e2 [|]]]; try discriminate.
  repeat split; reflexivity.
Qed.

Lemma export_file_name_shape_witness :
  export_file_name (mkTimestamp 2024 5 1 9 30) = "submissions_20240501_0930.csv" /\
  String.length (export_file_name (mkTimestamp 2024 5 1 9 30)) = 29.
Proof.
  split; [reflexivity|].
  refine (proj1 (export_file_name_shape (mkTimestamp 2024 5 1 9 30) _ _ _ _ _)); simpl;
    [split; [apply Nat.leb_le|apply Nat.ltb_lt]; vm_compute; reflexivity|lia..].
Defined.
